(** * pytest_check.check_methods: a shallow embedding

    The module keeps two process-wide globals, [_stop_on_fail] and
    [_failures], plus the shared [check] object whose [msg] attribute is
    mutated by [__call__] and [__exit__].  All three live in [St].
    Python code that may raise is modelled in a small state and exception
    monad [M]: a computation returns the new state (mutations done before a
    raise are kept, as in Python) together with a value or a raised
    exception. *)

From Stdlib Require Import String Ascii List Bool Arith ZArith Lia.
Import ListNotations.
Open Scope list_scope.
Open Scope string_scope.

(** ** Python values *)

(** An exception object: the names of the classes on its MRO (its own class
    first) and [str(e)]. *)
Record Exc := mk_exc { exc_mro : list string; exc_str : string }.

(** An instance of one of the builtin exception classes used below, all
    direct subclasses of [Exception]. *)
Definition builtin_exc (cls msg : string) : Exc :=
  mk_exc [cls; "Exception"; "BaseException"; "object"] msg.

Definition AssertionError (msg : string) := builtin_exc "AssertionError" msg.
Definition ValueError (msg : string) := builtin_exc "ValueError" msg.
Definition TypeError (msg : string) := builtin_exc "TypeError" msg.
Definition IndexError (msg : string) := builtin_exc "IndexError" msg.

(** [issubclass(type(e), classes)] for a tuple of classes given by name. *)
Definition issubclass (e : Exc) (classes : list string) : bool :=
  existsb (fun c => existsb (String.eqb c) (exc_mro e)) classes.

(** [issubclass(exc_type, AssertionError)]. *)
Definition is_assertion (e : Exc) : bool := issubclass e ["AssertionError"].

(** The values that reach [log_failure] and the [msg] attributes: [None], a
    string, or an exception object. *)
Inductive PyVal := VNone | VStr (s : string) | VExc (e : Exc).

Definition is_none (v : PyVal) : bool :=
  match v with VNone => true | _ => false end.

(** Python truthiness ([msg if msg else ""]): an exception object is
    always true. *)
Definition truthy (v : PyVal) : bool :=
  match v with
  | VNone => false
  | VStr s => negb (String.eqb s "")
  | VExc _ => true
  end.

(** [str(v)] as used by ["{}".format(v)]. *)
Definition py_str (v : PyVal) : string :=
  match v with
  | VNone => "None"
  | VStr s => s
  | VExc e => exc_str e
  end.

(** Python's [needle in hay] on strings. *)
Fixpoint str_in (needle hay : string) : bool :=
  String.prefix needle hay ||
  match hay with
  | EmptyString => false
  | String _ hay' => str_in needle hay'
  end.

(** ["{}".format(n)] for a non-negative int. *)
Fixpoint uint_to_string (d : Decimal.uint) : string :=
  match d with
  | Decimal.Nil => ""
  | Decimal.D0 d' => "0" ++ uint_to_string d'
  | Decimal.D1 d' => "1" ++ uint_to_string d'
  | Decimal.D2 d' => "2" ++ uint_to_string d'
  | Decimal.D3 d' => "3" ++ uint_to_string d'
  | Decimal.D4 d' => "4" ++ uint_to_string d'
  | Decimal.D5 d' => "5" ++ uint_to_string d'
  | Decimal.D6 d' => "6" ++ uint_to_string d'
  | Decimal.D7 d' => "7" ++ uint_to_string d'
  | Decimal.D8 d' => "8" ++ uint_to_string d'
  | Decimal.D9 d' => "9" ++ uint_to_string d'
  end.

Definition int_str (n : nat) : string := uint_to_string (Nat.to_uint n).

Definition nl : string := String (ascii_of_nat 10) EmptyString.

(** ** Process state *)

Record St := mk_st {
  stop_on_fail : bool;        (** [_stop_on_fail] *)
  failures : list string;     (** [_failures] *)
  check_msg : PyVal           (** [check.msg] of the shared [check] object *)
}.

Definition set_failures (l : list string) (st : St) : St :=
  mk_st (stop_on_fail st) l (check_msg st).
Definition set_check_msg (m : PyVal) (st : St) : St :=
  mk_st (stop_on_fail st) (failures st) m.

(** ** A state and exception monad *)

Inductive Outcome (A : Type) := Ret (v : A) | Exn (e : Exc).
Arguments Ret {A} v.
Arguments Exn {A} e.

Definition M (A : Type) := St -> St * Outcome A.

Definition ret {A} (v : A) : M A := fun st => (st, Ret v).
Definition raise {A} (e : Exc) : M A := fun st => (st, Exn e).
Definition bind {A B} (m : M A) (k : A -> M B) : M B :=
  fun st => match m st with
            | (st', Ret v) => k v st'
            | (st', Exn e) => (st', Exn e)
            end.
Definition get : M St := fun st => (st, Ret st).
Definition modify (f : St -> St) : M unit := fun st => (f st, Ret tt).

Notation "x <- m ;; k" := (bind m (fun x => k))
  (at level 61, m at next level, right associativity).
Notation "m ;;; k" := (bind m (fun _ => k))
  (at level 61, right associativity).

(** ** Failure Recorder *)

(** [clear_failures()]: rebinds [_failures] to a fresh empty list. *)
Definition clear_failures : M unit := modify (set_failures []).

(** [get_failures()]. *)
Definition get_failures : M (list string) :=
  st <- get ;; ret (failures st).

(** [set_stop_on_fail(stop_on_fail)]. *)
Definition set_stop_on_fail (b : bool) : M unit :=
  modify (fun st => mk_st b (failures st) (check_msg st)).

(** ** Pseudo-traceback *)

(** An entry of [inspect.stack()]: file name, line number, function name and
    [code_context] ([None] when the source is unavailable; otherwise its
    first line). *)
Record Frame := mk_frame {
  fr_filename : string;
  fr_lineno : nat;
  fr_function : string;
  fr_code_context : option string
}.

Section Trace.

(** [os.path.relpath] and [str.strip]. *)
Variable relpath : string -> string.
Variable strip : string -> string.

(** [get_full_context(level)] on the frame [inspect.stack()[level]];
    [contextlist[0]] raises when [code_context] is [None]. *)
Definition get_full_context (fr : Frame) : Outcome (string * nat * string * string) :=
  match fr_code_context fr with
  | None => Exn (TypeError "'NoneType' object is not subscriptable")
  | Some c => Ret (relpath (fr_filename fr), fr_lineno fr, fr_function fr, strip c)
  end.

(** ["{}:{} in {}() -> {}".format(file, line, func, context)]. *)
Definition format_line (file : string) (line : nat) (func context : string) : string :=
  file ++ ":" ++ int_str line ++ " in " ++ func ++ "() -> " ++ context.

(** The [while] loop of [log_failure]: [frames] is [inspect.stack()[level:]],
    so its head is the frame [get_full_context(level)] reads; [level += 1]
    moves to the tail.  An exhausted stack is [inspect.stack()[level]]
    raising [IndexError]. *)
Fixpoint trace_loop (frames : list Frame) (func : string) (pseudo_trace : list string)
  : Outcome (list string) :=
  if str_in "test_" func then Ret pseudo_trace else
  match frames with
  | [] => Exn (IndexError "list index out of range")
  | fr :: frames' =>
      match get_full_context fr with
      | Exn e => Exn e
      | Ret (file, line, func', context) =>
          if str_in "site-packages" file then Ret pseudo_trace
          else trace_loop frames' func' (pseudo_trace ++ [format_line file line func' context])%list
      end
  end.

(** [log_failure(msg)], where [stk] is [inspect.stack()] as seen from
    [get_full_context]: [stk[0]] is [get_full_context], [stk[1]] is
    [log_failure], [stk[2]] the component that detected the failure. *)
Definition log_failure (stk : list Frame) (msg : PyVal) : M unit :=
  fun st =>
    let level := 3 in
    match trace_loop (skipn level stk) "" [] with
    | Exn e => (st, Exn e)
    | Ret pseudo_trace =>
        let pseudo_trace_str := String.concat nl (rev pseudo_trace) in
        let entry := "FAILURE: " ++ (if truthy msg then py_str msg else "") ++ nl
                     ++ pseudo_trace_str in
        (set_failures (failures st ++ [entry])%list st, Ret tt)
    end.

(** ** Check-Function Wrapper *)

(** [check_func(func)] applied to [args]: [func( *args, **kwds)] runs first;
    [_stop_on_fail] is read in the [except] clause, after the body ran. *)
Definition check_func {A B} (func : A -> M B) (stk : list Frame) (args : A) : M bool :=
  fun st =>
    match func args st with
    | (st1, Ret _) => (st1, Ret true)
    | (st1, Exn e) =>
        if is_assertion e then
          if stop_on_fail st1 then (st1, Exn e)
          else (log_failure stk (VExc e) ;;; ret false) st1
        else (st1, Exn e)
    end.

(** [assert cond, msg]. *)
Definition py_assert (cond : bool) (msg : string) : M unit :=
  if cond then ret tt else raise (AssertionError msg).

(** The body of the predicate [equal], on ints: [assert a == b, msg]. *)
Definition equal_body (args : nat * nat * string) : M unit :=
  let '(a, b, msg) := args in py_assert (Nat.eqb a b) msg.

(** [equal = check_func(equal_body)]. *)
Definition equal (stk : list Frame) : nat * nat * string -> M bool :=
  check_func equal_body stk.

(** ** The [with] statement *)

(** [with obj as r: body]: both scopes' [__enter__] return [self] and do
    nothing else.  [exit] is [__exit__]; it returns the object as updated
    by it and whether it suppresses the exception.  The block does not use
    [r] itself.  The result is the object after the statement. *)
Definition with_obj {C A} (obj : C) (exit : C -> option Exc -> M (C * bool)) (body : M A)
  : M C :=
  fun st =>
    match body st with
    | (st1, Ret _) =>
        match exit obj None st1 with
        | (st2, Ret (obj', _)) => (st2, Ret obj')
        | (st2, Exn e') => (st2, Exn e')
        end
    | (st1, Exn e) =>
        match exit obj (Some e) st1 with
        | (st2, Ret (obj', true)) => (st2, Ret obj')
        | (st2, Ret (_, false)) => (st2, Exn e)
        | (st2, Exn e') => (st2, Exn e')
        end
    end.

(** The exception value [exc_val] handed to [__exit__]. *)
Definition exc_val (exc : option Exc) : PyVal :=
  match exc with Some e => VExc e | None => VNone end.

(** ** Soft-Check Scope: the shared [check] object *)

(** [check(msg)]: [self.msg = msg; return self]. *)
Definition check_call (msg : PyVal) : M unit := modify (set_check_msg msg).

(** [CheckContextManager.__exit__]; [None] (falsy) is [false]. *)
Definition check_exit (stk : list Frame) (exc : option Exc) : M bool :=
  fun st =>
    if (match exc with Some e => is_assertion e | None => false end) then
      if stop_on_fail st then (set_check_msg VNone st, Ret false)
      else (log_failure stk (if negb (is_none (check_msg st)) then check_msg st
                             else exc_val exc) ;;;
            modify (set_check_msg VNone) ;;;
            ret true) st
    else (set_check_msg VNone st, Ret false).

(** [with check: body]. *)
Definition with_check {A} (stk : list Frame) (body : M A) : M unit :=
  bind (with_obj tt (fun _ exc => b <- check_exit stk exc ;; ret (tt, b)) body)
       (fun _ => ret tt).

(** ** Exception-Expectation Scope *)

Record RaisesCtx := mk_raises {
  expected_excs : list string;   (** [self.expected_excs], by class name *)
  rmsg : PyVal                   (** [self.msg] *)
}.

(** [raises( *expected_excs, msg=msg)]. *)
Definition raises (expected : list string) (msg : PyVal) : RaisesCtx :=
  mk_raises expected msg.

(** [CheckRaisesContext.__exit__]. *)
Definition raises_exit (stk : list Frame) (self : RaisesCtx) (exc : option Exc)
  : M (RaisesCtx * bool) :=
  fun st =>
    let self' := mk_raises (expected_excs self) VNone in
    if (match exc with Some e => issubclass e (expected_excs self) | None => false end) then
      (st, Ret (self', true))
    else if stop_on_fail st then (st, Ret (self', false))
    else (log_failure stk (if negb (is_none (rmsg self)) then rmsg self else exc_val exc) ;;;
          ret (self', true)) st.

(** [with ctx: body]. *)
Definition with_raises {A} (stk : list Frame) (ctx : RaisesCtx) (body : M A) : M RaisesCtx :=
  with_obj ctx (raises_exit stk) body.

(** [CheckRaisesContext.__call__(callable_, *args, msg=msg)]. *)
Definition raises_call {A B} (self : RaisesCtx) (callable_ : A -> M B) (args : A) (msg : PyVal)
  : M RaisesCtx :=
  let self' := mk_raises (expected_excs self) msg in
  callable_ args ;;; ret self'.

(** ** Stacks met inside a test *)

(** Walking outward from [inspect.stack()[3]], every frame read has its
    source and a frame of installed library code or of a function named with
    the test marker is eventually met. *)
Fixpoint reaches_test_or_library (frames : list Frame) : bool :=
  match frames with
  | [] => false
  | fr :: rest =>
      match fr_code_context fr with
      | None => false
      | Some _ =>
          str_in "site-packages" (relpath (fr_filename fr)) ||
          str_in "test_" (fr_function fr) || reaches_test_or_library rest
      end
  end.

Definition test_stack (stk : list Frame) : bool := reaches_test_or_library (skipn 3 stk).

(** The record [log_failure stk msg] appends when its stack walk succeeds. *)
Definition pseudo_trace_of (stk : list Frame) : string :=
  match trace_loop (skipn 3 stk) "" [] with
  | Ret pt => String.concat nl (rev pt)
  | Exn _ => ""
  end.

Definition failure_entry (stk : list Frame) (msg : PyVal) : string :=
  "FAILURE: " ++ (if truthy msg then py_str msg else "") ++ nl ++ pseudo_trace_of stk.

Definition append_failure (stk : list Frame) (msg : PyVal) (st : St) : St :=
  set_failures (failures st ++ [failure_entry stk msg])%list st.

(** ** Spec-side description of the collected frames *)

(** The frames the pseudo-trace is made of, as described in words: walking
    outward from [inspect.stack()[3]], a frame of installed library code
    ends the walk and is left out; a frame whose function name carries the
    test marker is kept and ends the walk. *)
Fixpoint collected_frames (frames : list Frame) : list Frame :=
  match frames with
  | [] => []
  | fr :: rest =>
      if str_in "site-packages" (relpath (fr_filename fr)) then []
      else if str_in "test_" (fr_function fr) then [fr]
      else fr :: collected_frames rest
  end.

(** ["<path>:<line> in <function>() -> <source text>"] for one frame. *)
Definition render_frame (fr : Frame) : string :=
  match fr_code_context fr with
  | Some c => format_line (relpath (fr_filename fr)) (fr_lineno fr) (fr_function fr) (strip c)
  | None => ""
  end.

(** A sequence of failures, each detected at its own call stack, each
    reaching [log_failure]. *)
Fixpoint log_all (events : list (list Frame * PyVal)) : M unit :=
  match events with
  | [] => ret tt
  | (stk, m) :: rest => log_failure stk m ;;; log_all rest
  end.

(** ** The other predicates *)


(** The ordering predicates on Python ints. *)
Definition greater_body (args : Z * Z * string) : M unit :=
  let '(a, b, msg) := args in py_assert (Z.gtb a b) msg.
Definition greater (stk : list Frame) := check_func greater_body stk.




(** A predicate call [check_func(f)()] whose body is [assert cond, msg],
    made at stack [stk]. *)
Definition assert_call (call : list Frame * bool * string) : M bool :=
  let '(stk, cond, msg) := call in check_func (fun _ : unit => py_assert cond msg) stk tt.

(** The statements of a test body run one after the other. *)
Fixpoint run_all {A} (calls : list (M A)) : M (list A) :=
  match calls with
  | [] => ret []
  | c :: rest => x <- c ;; xs <- run_all rest ;; ret (x :: xs)
  end.


(** ** Concrete runs *)

(** Paths are taken relative to the project root already, so [relpath] is
    the identity on them; source lines are given stripped. *)
Definition src_frame (file func : string) (line : nat) : Frame :=
  mk_frame file line func (Some "check.equal(2, 3)").

Definition lib_file : string := "pytest_check/check_methods.py".
Definition pytest_file : string := "venv/lib/python3.8/site-packages/_pytest/python.py".

(** [inspect.stack()] when [equal] fails directly inside [test_demo]. *)
Definition demo_stack : list Frame :=
  [src_frame lib_file "get_full_context" 254; src_frame lib_file "log_failure" 273;
   src_frame lib_file "wrapper" 89; src_frame "tests/test_demo.py" "test_demo" 7;
   src_frame pytest_file "pytest_pyfunc_call" 183].

(** The same, for a test module of a package installed in site-packages
    (as collected by [pytest --pyargs]). *)
Definition installed_test_file : string :=
  "venv/lib/python3.8/site-packages/pkg/tests/test_mod.py".

Definition installed_stack : list Frame :=
  [src_frame lib_file "get_full_context" 254; src_frame lib_file "log_failure" 273;
   src_frame lib_file "wrapper" 89; src_frame installed_test_file "test_mod" 7;
   src_frame pytest_file "pytest_pyfunc_call" 183].

Definition st0 : St := mk_st false [] VNone.

(** [inspect.stack()] when [equal] fails inside [main] of a plain script,
    run outside pytest: no frame is test-marked or in site-packages. *)
Definition script_stack : list Frame :=
  [src_frame lib_file "get_full_context" 254; src_frame lib_file "log_failure" 273;
   src_frame lib_file "wrapper" 89; src_frame "tools/run.py" "main" 12;
   src_frame "tools/run.py" "<module>" 20].

(** A [UnicodeDecodeError], which derives from [ValueError]. *)
Definition unicode_decode_error : Exc :=
  mk_exc ["UnicodeDecodeError"; "UnicodeError"; "ValueError"; "Exception";
          "BaseException"; "object"] "invalid start byte".

(** A wrapped body that raises [TypeError], like [is_in(1, 5)]. *)
Definition not_iterable_body (_ : unit) : M unit :=
  raise (TypeError "argument of type 'int' is not iterable").

(** ** The logging operation *)

Lemma trace_loop_total (frames : list Frame) (func : string) (acc : list string) :
  reaches_test_or_library frames = true ->
  exists pt, trace_loop frames func acc = Ret pt.
Proof.
  revert func acc.
  induction frames as [|fr frames IH]; intros func acc H; simpl in *.
  - discriminate.
  - destruct (str_in "test_" func); [eauto|].
    unfold get_full_context.
    destruct (fr_code_context fr) as [c|]; [|discriminate].
    destruct (str_in "site-packages" (relpath (fr_filename fr))) eqn:Hlib; [eauto|].
    simpl in H.
    destruct (str_in "test_" (fr_function fr)) eqn:Ht.
    + destruct frames as [|fr' frames']; simpl; rewrite Ht; eauto.
    + apply IH; exact H.
Qed.

Lemma log_failure_appends (stk : list Frame) (msg : PyVal) (st : St) :
  test_stack stk = true ->
  log_failure stk msg st = (append_failure stk msg st, Ret tt).
Proof.
  intros H.
  destruct (trace_loop_total (skipn 3 stk) "" [] H) as [pt Hpt].
  unfold log_failure, append_failure, failure_entry, pseudo_trace_of.
  rewrite Hpt. reflexivity.
Qed.


(** ** Helper lemmas *)

Lemma trace_loop_collected (frames : list Frame) (func : string) (acc pt : list string) :
  str_in "test_" func = false ->
  trace_loop frames func acc = Ret pt ->
  pt = (acc ++ map render_frame (collected_frames frames))%list.
Proof.
  revert func acc.
  induction frames as [|fr frames IH]; intros func acc Hf H; simpl in H; rewrite Hf in H.
  - discriminate.
  - unfold get_full_context in H.
    destruct (fr_code_context fr) as [c|] eqn:Hc; [|discriminate].
    simpl.
    destruct (str_in "site-packages" (relpath (fr_filename fr))) eqn:Hlib.
    + injection H as <-. rewrite app_nil_r. reflexivity.
    + destruct (str_in "test_" (fr_function fr)) eqn:Ht.
      * destruct frames as [|fr' frames']; simpl in H; rewrite Ht in H;
          injection H as <-; simpl; unfold render_frame; rewrite Hc; reflexivity.
      * apply IH in H; [|exact Ht]. subst pt. simpl.
        unfold render_frame at 2; rewrite Hc.
        rewrite <- app_assoc. reflexivity.
Qed.

Lemma collected_frames_not_library (frames : list Frame) :
  Forall (fun fr => str_in "site-packages" (relpath (fr_filename fr)) = false)
         (collected_frames frames).
Proof.
  induction frames as [|fr frames IH]; simpl; [constructor|].
  destruct (str_in "site-packages" (relpath (fr_filename fr))) eqn:Hlib; [constructor|].
  destruct (str_in "test_" (fr_function fr)); repeat constructor; auto.
Qed.

Lemma log_all_appends (events : list (list Frame * PyVal)) (st : St) :
  Forall (fun ev => test_stack (fst ev) = true) events ->
  log_all events st =
    (set_failures (failures st ++ map (fun ev => failure_entry (fst ev) (snd ev)) events)%list st,
     Ret tt).
Proof.
  revert st.
  induction events as [|[stk m] events IH]; intros st Hall; simpl.
  - rewrite app_nil_r. destruct st; reflexivity.
  - inversion Hall as [|? ? Hhd Htl]; subst. simpl in Hhd.
    unfold bind. rewrite (log_failure_appends stk m st Hhd).
    rewrite (IH _ Htl). unfold append_failure, set_failures; simpl.
    rewrite <- app_assoc. reflexivity.
Qed.


(** ** Check-Function Wrapper *)

(** C1 (amended): when the wrapped body returns normally the wrapper returns
    [True] and leaves the state as the body left it (it logs nothing of its
    own); when the body raises an assertion failure in Strict Mode the
    wrapper re-raises that same failure without logging; when it raises an
    assertion failure outside Strict Mode the wrapper logs exactly one
    record built from the failure's value and returns [False]; any other
    exception propagates unchanged and unlogged. *)
Theorem check_func_contract {A B} (func : A -> M B) (stk : list Frame) (args : A)
    (st st1 : St) :
  (forall v, func args st = (st1, Ret v) ->
     check_func func stk args st = (st1, Ret true)) /\
  (forall e, func args st = (st1, Exn e) -> is_assertion e = true ->
     stop_on_fail st1 = true ->
     check_func func stk args st = (st1, Exn e)) /\
  (forall e, func args st = (st1, Exn e) -> is_assertion e = true ->
     stop_on_fail st1 = false -> test_stack stk = true ->
     check_func func stk args st = (append_failure stk (VExc e) st1, Ret false)) /\
  (forall e, func args st = (st1, Exn e) -> is_assertion e = false ->
     check_func func stk args st = (st1, Exn e)).
Proof.
  unfold check_func.
  split; [|split; [|split]]; intros * H; rewrite H; [reflexivity| | |].
  - intros Ha Hs. rewrite Ha, Hs. reflexivity.
  - intros Ha Hs Hstk. rewrite Ha, Hs. unfold bind.
    rewrite (log_failure_appends stk (VExc e) st1 Hstk). reflexivity.
  - intros Ha. rewrite Ha. reflexivity.
Qed.

(** ** Soft-Check Scope *)

(** C2: on exit of [with check: ...], an assertion failure outside Strict
    Mode is logged exactly once (with the configured message when one is
    set, else with the failure) and suppressed; any other exception, or a
    clean exit, logs nothing and is not suppressed; and in every branch,
    Strict Mode included, the configured message is [None] afterwards. *)
Theorem check_scope_exit {A} (stk : list Frame) (body : M A) (st st1 : St)
    (o : Outcome A) :
  test_stack stk = true ->
  body st = (st1, o) ->
  (forall e, o = Exn e -> is_assertion e = true -> stop_on_fail st1 = false ->
     with_check stk body st =
       (set_check_msg VNone
          (append_failure stk
             (if is_none (check_msg st1) then VExc e else check_msg st1) st1),
        Ret tt)) /\
  (forall e, o = Exn e -> is_assertion e = false ->
     with_check stk body st = (set_check_msg VNone st1, Exn e)) /\
  (forall v, o = Ret v ->
     with_check stk body st = (set_check_msg VNone st1, Ret tt)) /\
  check_msg (fst (with_check stk body st)) = VNone.
Proof.
  intros Hstk H.
  unfold with_check, with_obj, check_exit, bind, ret, modify.
  rewrite H.
  split; [|split; [|split]].
  - intros e -> Ha Hs. rewrite Ha, Hs.
    rewrite (log_failure_appends stk _ st1 Hstk).
    destruct (check_msg st1); reflexivity.
  - intros e -> Ha. rewrite Ha. reflexivity.
  - intros v ->. reflexivity.
  - destruct o as [v|e]; [reflexivity|].
    destruct (is_assertion e); [|reflexivity].
    destruct (stop_on_fail st1); [reflexivity|].
    rewrite (log_failure_appends stk _ st1 Hstk). reflexivity.
Qed.

(** ** Failure Recorder *)

(** C3: after [clear_failures()] and N logged failures, [get_failures()]
    returns exactly N entries in detection order; each logging operation
    appends exactly one record after the existing ones; [clear_failures()]
    leaves zero entries whatever the log held. *)
Theorem failure_log_order (events : list (list Frame * PyVal)) (st : St) :
  Forall (fun ev => test_stack (fst ev) = true) events ->
  snd ((clear_failures ;;; log_all events ;;; get_failures) st) =
    Ret (map (fun ev => failure_entry (fst ev) (snd ev)) events) /\
  length (failures (fst ((clear_failures ;;; log_all events) st))) = length events /\
  (forall stk m st', test_stack stk = true ->
     failures (fst (log_failure stk m st')) = (failures st' ++ [failure_entry stk m])%list) /\
  (forall st', failures (fst (clear_failures st')) = []).
Proof.
  intros Hall.
  split; [|split; [|split]].
  - unfold bind at 1. simpl.
    unfold bind. rewrite (log_all_appends events _ Hall). reflexivity.
  - unfold bind. simpl. rewrite (log_all_appends events _ Hall). simpl.
    apply length_map.
  - intros stk m st' Hstk. rewrite (log_failure_appends stk m st' Hstk). reflexivity.
  - reflexivity.
Qed.

(** ** Exception-Expectation Scope *)

Lemma with_raises_raised {A} (stk : list Frame) (ctx : RaisesCtx) (body : M A)
    (st st1 : St) (e : Exc) :
  body st = (st1, Exn e) ->
  test_stack stk = true ->
  with_raises stk ctx body st =
    if issubclass e (expected_excs ctx) then (st1, Ret (mk_raises (expected_excs ctx) VNone))
    else if stop_on_fail st1 then (st1, Exn e)
    else (append_failure stk (if is_none (rmsg ctx) then VExc e else rmsg ctx) st1,
          Ret (mk_raises (expected_excs ctx) VNone)).
Proof.
  intros H Hstk.
  unfold with_raises, with_obj, raises_exit, bind, ret. rewrite H.
  destruct (issubclass e (expected_excs ctx)); [reflexivity|].
  destruct (stop_on_fail st1); [reflexivity|].
  rewrite (log_failure_appends stk _ st1 Hstk).
  destruct (rmsg ctx); reflexivity.
Qed.

Lemma with_raises_strict_unmatched {A} (stk : list Frame) (ctx : RaisesCtx) (body : M A)
    (st st1 : St) (e : Exc) :
  body st = (st1, Exn e) ->
  issubclass e (expected_excs ctx) = false ->
  stop_on_fail st1 = true ->
  with_raises stk ctx body st = (st1, Exn e).
Proof.
  intros H Hm Hs.
  unfold with_raises, with_obj, raises_exit, bind, ret. rewrite H, Hm, Hs.
  reflexivity.
Qed.

(** C4: a scope watching for [ValueError] suppresses a [ValueError] and
    logs nothing; a [TypeError] outside Strict Mode is logged exactly once
    and does not propagate; a [TypeError] in Strict Mode propagates
    unchanged and nothing is logged. *)
Theorem raises_value_error_scope {A} (stk : list Frame) (body : M A) (msg : PyVal)
    (s : string) (st st1 : St) :
  (body st = (st1, Exn (ValueError s)) ->
     with_raises stk (raises ["ValueError"] msg) body st =
       (st1, Ret (mk_raises ["ValueError"] VNone))) /\
  (body st = (st1, Exn (TypeError s)) -> stop_on_fail st1 = false ->
     test_stack stk = true ->
     with_raises stk (raises ["ValueError"] msg) body st =
       (append_failure stk (if is_none msg then VExc (TypeError s) else msg) st1,
        Ret (mk_raises ["ValueError"] VNone))) /\
  (body st = (st1, Exn (TypeError s)) -> stop_on_fail st1 = true ->
     with_raises stk (raises ["ValueError"] msg) body st = (st1, Exn (TypeError s))).
Proof.
  split; [|split].
  - intros H. unfold with_raises, with_obj, raises_exit. rewrite H. reflexivity.
  - intros H Hs Hstk. rewrite (with_raises_raised stk _ body st st1 _ H Hstk), Hs.
    reflexivity.
  - intros H Hs. apply with_raises_strict_unmatched; auto.
Qed.

(** C5 (amended): an exception that is not an assertion failure propagates
    unchanged and unlogged, in both modes, from the check-function wrapper
    and from the Soft-Check Scope; an exception an Exception-Expectation
    Scope does not watch for propagates unchanged and unlogged in Strict
    Mode, and outside Strict Mode is logged exactly once and suppressed. *)
Theorem unexpected_exception_policy {A B} (stk : list Frame) (func : A -> M B) (args : A)
    (body : M B) (ctx : RaisesCtx) (st st1 : St) (e : Exc) :
  is_assertion e = false ->
  (func args st = (st1, Exn e) -> check_func func stk args st = (st1, Exn e)) /\
  (body st = (st1, Exn e) ->
     with_check stk body st = (set_check_msg VNone st1, Exn e) /\
     failures (set_check_msg VNone st1) = failures st1) /\
  (body st = (st1, Exn e) -> issubclass e (expected_excs ctx) = false ->
     stop_on_fail st1 = true -> with_raises stk ctx body st = (st1, Exn e)) /\
  (body st = (st1, Exn e) -> issubclass e (expected_excs ctx) = false ->
     stop_on_fail st1 = false -> test_stack stk = true ->
     with_raises stk ctx body st =
       (append_failure stk (if is_none (rmsg ctx) then VExc e else rmsg ctx) st1,
        Ret (mk_raises (expected_excs ctx) VNone))).
Proof.
  intros Ha. split; [|split; [|split]].
  - intros H. unfold check_func. rewrite H, Ha. reflexivity.
  - intros H. unfold with_check, with_obj, check_exit, bind, ret. rewrite H, Ha.
    split; reflexivity.
  - intros H Hm Hs. apply with_raises_strict_unmatched; auto.
  - intros H Hm Hs Hstk. rewrite (with_raises_raised stk ctx body st st1 e H Hstk), Hm, Hs.
    reflexivity.
Qed.

(** C6 (amended): when the block of an Exception-Expectation Scope
    completes without an exception, nothing is raised; in Strict Mode the
    Failure Log is unchanged, outside Strict Mode exactly one failure is
    logged, with the configured message or else an empty message. *)
Theorem raises_clean_exit {A} (stk : list Frame) (ctx : RaisesCtx) (body : M A)
    (st st1 : St) (v : A) :
  body st = (st1, Ret v) ->
  (stop_on_fail st1 = true ->
     with_raises stk ctx body st = (st1, Ret (mk_raises (expected_excs ctx) VNone))) /\
  (stop_on_fail st1 = false -> test_stack stk = true ->
     with_raises stk ctx body st =
       (append_failure stk (if is_none (rmsg ctx) then VNone else rmsg ctx) st1,
        Ret (mk_raises (expected_excs ctx) VNone))).
Proof.
  intros H. unfold with_raises, with_obj, raises_exit, bind, ret. rewrite H.
  split.
  - intros Hs. rewrite Hs. reflexivity.
  - intros Hs Hstk. rewrite Hs, (log_failure_appends stk _ st1 Hstk).
    destruct (rmsg ctx); reflexivity.
Qed.

(** ** Strict Mode *)

(** C8: once Strict Mode is enabled, a failing predicate (a wrapped body
    that raises an assertion failure and touches no state) and an assertion
    failure inside the Soft-Check Scope propagate at once as that same
    exception, and the Failure Log after the attempt is the one before it. *)
Theorem strict_mode_fail_fast {A B} (stk : list Frame) (pred : A -> M B) (args : A)
    (body : M B) (st0 st1 : St) (e : Exc) :
  let st := fst (set_stop_on_fail true st0) in
  is_assertion e = true ->
  (pred args st = (st, Exn e) ->
     check_func pred stk args st = (st, Exn e)) /\
  (body st = (st1, Exn e) -> stop_on_fail st1 = true ->
     snd (with_check stk body st) = Exn e /\
     failures (fst (with_check stk body st)) = failures st1).
Proof.
  intros st Ha. split.
  - intros H. unfold check_func. rewrite H, Ha. reflexivity.
  - intros H Hs. unfold with_check, with_obj, check_exit, bind, ret. rewrite H, Ha, Hs.
    split; reflexivity.
Qed.

(** ** Pseudo-Traceback *)

(** C9 (amended): a logged record is ["FAILURE: <msg>"] followed by the
    collected frames, each rendered as
    ["<path>:<line> in <function>() -> <source text>"], in reverse order of
    collection; the collected frames are those met walking outward until a
    frame named with the test marker (kept, last) or a frame of installed
    library code (left out); no collected frame is installed library code;
    and when the failure is detected directly inside a function named with
    the test marker that is not itself in installed library code, that
    frame is the whole trace, hence its first line. *)
Theorem pseudo_trace_shape (stk : list Frame) (msg : PyVal) (st st' : St) :
  log_failure stk msg st = (st', Ret tt) ->
  failures st' =
    app (failures st)
     ["FAILURE: " ++ (if truthy msg then py_str msg else "") ++ nl ++
      String.concat nl (rev (map render_frame (collected_frames (skipn 3 stk))))] /\
  Forall (fun fr => str_in "site-packages" (relpath (fr_filename fr)) = false)
         (collected_frames (skipn 3 stk)) /\
  (forall fr, nth_error stk 3 = Some fr -> str_in "test_" (fr_function fr) = true ->
     str_in "site-packages" (relpath (fr_filename fr)) = false ->
     pseudo_trace_of stk = render_frame fr).
Proof.
  intros H. unfold log_failure in H.
  destruct (trace_loop (skipn 3 stk) "" []) as [pt|e] eqn:Ht; [|discriminate].
  injection H as <-.
  pose proof (trace_loop_collected (skipn 3 stk) "" [] pt eq_refl Ht) as Hpt.
  simpl in Hpt. subst pt.
  split; [|split].
  - reflexivity.
  - apply collected_frames_not_library.
  - intros fr Hfr Htest Hlib.
    unfold pseudo_trace_of. rewrite Ht.
    destruct stk as [|f0 [|f1 [|f2 [|f3 rest]]]]; try discriminate.
    simpl in Hfr. injection Hfr as ->. simpl.
    rewrite Hlib, Htest. reflexivity.
Qed.

(** ** A scope watching for no exception type *)

(** C10: [raises()] with no type matches nothing, since [issubclass]
    against the empty tuple is false: any exception raised in the block,
    assertion failures included, is logged once and suppressed outside
    Strict Mode, and propagates unchanged in Strict Mode. *)
Theorem raises_without_types {A} (stk : list Frame) (msg : PyVal) (body : M A)
    (st st1 : St) (e : Exc) :
  body st = (st1, Exn e) ->
  issubclass e [] = false /\
  (stop_on_fail st1 = false -> test_stack stk = true ->
     with_raises stk (raises [] msg) body st =
       (append_failure stk (if is_none msg then VExc e else msg) st1,
        Ret (mk_raises [] VNone))) /\
  (stop_on_fail st1 = true ->
     with_raises stk (raises [] msg) body st = (st1, Exn e)).
Proof.
  intros H. split; [reflexivity|split].
  - intros Hs Hstk. rewrite (with_raises_raised stk _ body st st1 e H Hstk), Hs.
    reflexivity.
  - intros Hs. apply with_raises_strict_unmatched; auto.
Qed.

(** ** Further properties of the code *)

Lemma trace_loop_fails (frames : list Frame) (func : string) (acc : list string) :
  reaches_test_or_library frames = false ->
  str_in "test_" func = false ->
  exists e, trace_loop frames func acc = Exn e /\
    (e = IndexError "list index out of range" \/
     e = TypeError "'NoneType' object is not subscriptable").
Proof.
  revert func acc.
  induction frames as [|fr frames IH]; intros func acc H Hf; simpl; rewrite Hf.
  - eauto.
  - simpl in H. unfold get_full_context.
    destruct (fr_code_context fr) as [c|]; [|eauto].
    apply orb_false_iff in H as [H Hrest]. apply orb_false_iff in H as [Hlib Ht].
    rewrite Hlib. apply IH; assumption.
Qed.

Lemma log_failure_raises (stk : list Frame) (msg : PyVal) (st : St) :
  test_stack stk = false ->
  exists e, log_failure stk msg st = (st, Exn e) /\
    (e = IndexError "list index out of range" \/
     e = TypeError "'NoneType' object is not subscriptable").
Proof.
  intros H.
  destruct (trace_loop_fails (skipn 3 stk) "" [] H eq_refl) as (e & He & Hk).
  exists e. unfold log_failure. rewrite He. auto.
Qed.

(** [log_failure] either appends exactly one record (when the walk from
    [inspect.stack()[3]] meets a test-marked or site-packages frame, every
    frame read having its source) or raises [IndexError] (stack exhausted)
    or [TypeError] (a frame without source) and leaves the state as it was. *)
Theorem log_failure_outcomes (stk : list Frame) (msg : PyVal) (st : St) :
  (test_stack stk = true ->
     log_failure stk msg st = (append_failure stk msg st, Ret tt)) /\
  (test_stack stk = false ->
     exists e, log_failure stk msg st = (st, Exn e) /\
       (e = IndexError "list index out of range" \/
        e = TypeError "'NoneType' object is not subscriptable")).
Proof.
  split; [apply log_failure_appends | apply log_failure_raises].
Qed.

(** Outside a test (the walk of [log_failure] fails) and outside Strict
    Mode, an assertion failure caught by the wrapper or by [check] is
    replaced by the non-assertion exception [log_failure] raises; nothing is
    logged, and [check] keeps its configured message, which is not reset. *)
Theorem soft_failure_outside_test {A B} (stk : list Frame) (func : A -> M B) (args : A)
    (body : M B) (st st1 : St) (e : Exc) :
  test_stack stk = false -> is_assertion e = true -> stop_on_fail st1 = false ->
  (func args st = (st1, Exn e) ->
     exists e', check_func func stk args st = (st1, Exn e') /\ is_assertion e' = false) /\
  (body st = (st1, Exn e) ->
     exists e', with_check stk body st = (st1, Exn e') /\ is_assertion e' = false).
Proof.
  intros Hstk Ha Hs. split; intros H.
  - unfold check_func. rewrite H, Ha, Hs.
    destruct (log_failure_raises stk (VExc e) st1 Hstk) as (e' & He & Hk).
    exists e'. unfold bind. rewrite He.
    split; [reflexivity|]. destruct Hk as [-> | ->]; reflexivity.
  - unfold with_check, with_obj, check_exit, bind, ret. rewrite H, Ha, Hs.
    destruct (log_failure_raises stk
                (if negb (is_none (check_msg st1)) then check_msg st1 else exc_val (Some e))
                st1 Hstk) as (e' & He & Hk).
    exists e'. rewrite He.
    split; [reflexivity|]. destruct Hk as [-> | ->]; reflexivity.
Qed.

Lemma assert_call_result (stk : list Frame) (cond : bool) (msg : string) (st : St) :
  assert_call (stk, cond, msg) st =
    if cond then (st, Ret true)
    else if stop_on_fail st then (st, Exn (AssertionError msg))
    else (log_failure stk (VExc (AssertionError msg)) ;;; ret false) st.
Proof. unfold assert_call, check_func, py_assert. destruct cond; reflexivity. Qed.

(** Every predicate has the body [assert cond, msg]: when [cond] holds it
    returns [True] and changes nothing; otherwise in Strict Mode it raises
    [AssertionError(msg)] and changes nothing, and outside Strict Mode it
    appends the one record ["FAILURE: " + msg + "\n" + trace] (the [msg]
    argument verbatim, empty by default) and returns [False]. *)
Theorem assert_predicate_contract {A} (cond : A -> bool) (msg : A -> string)
    (stk : list Frame) (args : A) (st : St) :
  test_stack stk = true ->
  check_func (fun a => py_assert (cond a) (msg a)) stk args st =
    if cond args then (st, Ret true)
    else if stop_on_fail st then (st, Exn (AssertionError (msg args)))
    else (set_failures (app (failures st) ["FAILURE: " ++ msg args ++ nl ++ pseudo_trace_of stk]) st,
          Ret false).
Proof.
  intros Hstk. unfold check_func, py_assert, ret, raise.
  destruct (cond args); [reflexivity|].
  destruct (stop_on_fail st); [reflexivity|].
  unfold bind. rewrite (log_failure_appends stk _ st Hstk). reflexivity.
Qed.




(** Outside Strict Mode, a test body made of predicate calls runs every
    call: each returns whether its condition held, and the log gains, in
    call order, exactly one record per failing call. *)
Theorem soft_checks_accumulate (calls : list (list Frame * bool * string)) (st : St) :
  stop_on_fail st = false ->
  Forall (fun c => test_stack (fst (fst c)) = true) calls ->
  run_all (map assert_call calls) st =
    (set_failures
       (app (failures st)
          (map (fun '(stk, _, m) => failure_entry stk (VExc (AssertionError m)))
               (filter (fun '(_, c, _) => negb c) calls))) st,
     Ret (map (fun '(_, c, _) => c) calls)).
Proof.
  revert st.
  induction calls as [|[[stk c] m] calls IH]; intros st Hs Hall; cbn [map run_all].
  - simpl. rewrite app_nil_r. destruct st; reflexivity.
  - inversion Hall as [|? ? Hhd Htl]; subst. simpl in Hhd.
    unfold bind at 1. rewrite assert_call_result.
    destruct c; simpl.
    + unfold bind. rewrite (IH st Hs Htl). reflexivity.
    + rewrite Hs. unfold bind. rewrite (log_failure_appends stk _ st Hhd).
      unfold ret. rewrite IH; [| exact Hs | exact Htl].
      unfold append_failure, set_failures. simpl.
      rewrite <- app_assoc. reflexivity.
Qed.

(** In Strict Mode the same body stops at the first failing call, which
    raises [AssertionError(msg)]; the calls before it returned [True] and
    the state, log included, is unchanged. *)
Theorem strict_checks_stop_at_first (calls : list (list Frame * bool * string)) (st : St) :
  stop_on_fail st = true ->
  run_all (map assert_call calls) st =
    (st, match find (fun '(_, c, _) => negb c) calls with
         | None => Ret (map (fun _ => true) calls)
         | Some (_, _, m) => Exn (AssertionError m)
         end).
Proof.
  intros Hs.
  induction calls as [|[[stk c] m] calls IH]; cbn [map run_all]; [reflexivity|].
  unfold bind at 1. rewrite assert_call_result.
  destruct c; simpl.
  - unfold bind. rewrite IH.
    destruct (find (fun '(_, c, _) => negb c) calls) as [[[? ?] ?]|]; reflexivity.
  - rewrite Hs. reflexivity.
Qed.

(** An Exception-Expectation Scope suppresses any exception whose class is,
    or derives from, one of its expected types, in either mode, logs
    nothing, and clears its message. *)
Theorem raises_matching_suppressed {A} (stk : list Frame) (ctx : RaisesCtx) (body : M A)
    (st st1 : St) (e : Exc) :
  body st = (st1, Exn e) ->
  issubclass e (expected_excs ctx) = true ->
  with_raises stk ctx body st = (st1, Ret (mk_raises (expected_excs ctx) VNone)).
Proof.
  intros H Hm.
  unfold with_raises, with_obj, raises_exit. rewrite H, Hm. reflexivity.
Qed.

End Trace.

Example demo_equal_fails :
  equal id id demo_stack (2, 3, "custom") st0 =
    (mk_st false ["FAILURE: custom" ++ nl ++
                  "tests/test_demo.py:7 in test_demo() -> check.equal(2, 3)"] VNone,
     Ret false).
Proof. reflexivity. Qed.

Example demo_equal_passes : equal id id demo_stack (2, 2, "custom") st0 = (st0, Ret true).
Proof. reflexivity. Qed.

Lemma check_func_contract_witness :
  test_stack id demo_stack = true /\
  equal id id demo_stack (2, 3, "custom") st0 =
    (append_failure id id demo_stack (VExc (AssertionError "custom")) st0, Ret false).
Proof.
  split; [reflexivity|].
  destruct (check_func_contract id id equal_body demo_stack (2, 3, "custom") st0 st0)
    as (_ & _ & H & _).
  apply (H (AssertionError "custom")); reflexivity.
Defined.

(** C1 fails as stated: the body raises no assertion failure, yet the
    wrapper does not return [True], it raises. *)
Lemma check_func_non_assertion_counterexample :
  snd (not_iterable_body tt st0) = Exn (TypeError "argument of type 'int' is not iterable") /\
  is_assertion (TypeError "argument of type 'int' is not iterable") = false /\
  check_func id id not_iterable_body demo_stack tt st0 =
    (st0, Exn (TypeError "argument of type 'int' is not iterable")) /\
  snd (check_func id id not_iterable_body demo_stack tt st0) <> Ret true.
Proof.
  split; [reflexivity|split; [reflexivity|split; [reflexivity|]]].
  simpl. discriminate.
Qed.

Lemma check_scope_exit_witness :
  test_stack id demo_stack = true /\
  with_check id id demo_stack (@raise unit (AssertionError "boom")) (set_check_msg (VStr "m") st0) =
    (set_check_msg VNone (append_failure id id demo_stack (VStr "m") (set_check_msg (VStr "m") st0)),
     Ret tt).
Proof.
  split; [reflexivity|].
  destruct (check_scope_exit id id demo_stack (A:=unit) (raise (AssertionError "boom"))
              (set_check_msg (VStr "m") st0) (set_check_msg (VStr "m") st0)
              (Exn (AssertionError "boom")) eq_refl eq_refl) as (H & _).
  apply (H (AssertionError "boom")); reflexivity.
Defined.

Lemma failure_log_order_witness :
  snd ((clear_failures ;;; log_all id id [(demo_stack, VStr "a"); (demo_stack, VStr "b")]
        ;;; get_failures) st0) =
    Ret [failure_entry id id demo_stack (VStr "a"); failure_entry id id demo_stack (VStr "b")].
Proof.
  destruct (failure_log_order id id [(demo_stack, VStr "a"); (demo_stack, VStr "b")] st0)
    as (H & _).
  - constructor; [reflexivity|constructor; [reflexivity|constructor]].
  - exact H.
Defined.

Lemma raises_value_error_scope_witness :
  test_stack id demo_stack = true /\
  with_raises id id demo_stack (raises ["ValueError"] VNone) (@raise unit (TypeError "t")) st0 =
    (append_failure id id demo_stack (VExc (TypeError "t")) st0,
     Ret (mk_raises ["ValueError"] VNone)).
Proof.
  split; [reflexivity|].
  destruct (raises_value_error_scope id id demo_stack (@raise unit (TypeError "t")) VNone
              "t" st0 st0) as (_ & H & _).
  apply H; reflexivity.
Defined.

(** C5 fails as stated: outside Strict Mode, a [TypeError] in a scope
    watching for [ValueError] is neither an assertion failure nor watched,
    yet it is suppressed and recorded. *)
Lemma unexpected_exception_counterexample :
  is_assertion (TypeError "t") = false /\
  issubclass (TypeError "t") ["ValueError"] = false /\
  snd (with_raises id id demo_stack (raises ["ValueError"] VNone) (@raise unit (TypeError "t")) st0)
    = Ret (mk_raises ["ValueError"] VNone) /\
  length (failures (fst (with_raises id id demo_stack (raises ["ValueError"] VNone)
                           (@raise unit (TypeError "t")) st0))) = 1.
Proof. repeat split; reflexivity. Qed.

Lemma unexpected_exception_policy_witness :
  with_check id id demo_stack (@raise unit (TypeError "t")) st0 = (st0, Exn (TypeError "t")).
Proof.
  destruct (unexpected_exception_policy id id demo_stack not_iterable_body tt
              (@raise unit (TypeError "t")) (raises ["ValueError"] VNone) st0 st0
              (TypeError "t") eq_refl) as (_ & H & _).
  apply H. reflexivity.
Defined.

(** C6 fails as stated: outside Strict Mode, a block that raises nothing
    makes the scope's exit record a failure. *)
Lemma raises_clean_exit_counterexample :
  with_raises id id demo_stack (raises ["ValueError"] VNone) (ret tt) st0 =
    (set_failures ["FAILURE: " ++ nl ++
                   "tests/test_demo.py:7 in test_demo() -> check.equal(2, 3)"] st0,
     Ret (mk_raises ["ValueError"] VNone)) /\
  failures st0 = [].
Proof. split; reflexivity. Qed.

Lemma raises_clean_exit_witness :
  test_stack id demo_stack = true /\
  with_raises id id demo_stack (raises ["ValueError"] (VStr "no error")) (ret tt) st0 =
    (append_failure id id demo_stack (VStr "no error") st0,
     Ret (mk_raises ["ValueError"] VNone)).
Proof.
  split; [reflexivity|].
  destruct (raises_clean_exit id id demo_stack (raises ["ValueError"] (VStr "no error"))
              (ret tt) st0 st0 tt eq_refl) as (_ & H).
  apply H; reflexivity.
Defined.

(** C7: [raises(ValueError)(f)] with [f] raising [ValueError] lets the
    [ValueError] escape, and returns no scope object, while the [with] form
    around the same call suppresses it. *)
Theorem raises_call_does_not_suppress :
  let ctx := raises ["ValueError"] VNone in
  let f := fun _ : unit => @raise unit (ValueError "bad value") in
  raises_call ctx f tt VNone st0 = (st0, Exn (ValueError "bad value")) /\
  with_raises id id demo_stack ctx (f tt) st0 = (st0, Ret (mk_raises ["ValueError"] VNone)).
Proof. split; reflexivity. Qed.

Lemma strict_mode_fail_fast_witness :
  check_func id id equal_body demo_stack (2, 3, "x") (fst (set_stop_on_fail true st0)) =
    (fst (set_stop_on_fail true st0), Exn (AssertionError "x")).
Proof.
  destruct (strict_mode_fail_fast id id demo_stack equal_body (2, 3, "x") (ret tt) st0
              (fst (set_stop_on_fail true st0)) (AssertionError "x") eq_refl) as (H & _).
  apply H. reflexivity.
Defined.

(** C9 fails as stated: a failure detected directly inside [test_mod], a
    test function whose module lies under site-packages, gets an empty
    trace, so the test function's frame is not its first line. *)
Lemma pseudo_trace_installed_test_counterexample :
  nth_error installed_stack 3 = Some (src_frame installed_test_file "test_mod" 7) /\
  log_failure id id installed_stack (VStr "m") st0 =
    (set_failures ["FAILURE: m" ++ nl] st0, Ret tt) /\
  pseudo_trace_of id id installed_stack = "" /\
  render_frame id id (src_frame installed_test_file "test_mod" 7) <> "".
Proof.
  split; [reflexivity|split; [reflexivity|split; [reflexivity|]]].
  simpl. discriminate.
Qed.

Lemma pseudo_trace_shape_witness :
  pseudo_trace_of id id demo_stack = render_frame id id (src_frame "tests/test_demo.py" "test_demo" 7).
Proof.
  destruct (pseudo_trace_shape id id demo_stack (VStr "m") st0
              (append_failure id id demo_stack (VStr "m") st0) eq_refl) as (_ & _ & H).
  apply H; reflexivity.
Defined.

Lemma raises_without_types_witness :
  with_raises id id demo_stack (raises [] VNone) (@raise unit (AssertionError "a")) st0 =
    (append_failure id id demo_stack (VExc (AssertionError "a")) st0, Ret (mk_raises [] VNone)).
Proof.
  destruct (raises_without_types id id demo_stack VNone (@raise unit (AssertionError "a"))
              st0 st0 (AssertionError "a") eq_refl) as (_ & H & _).
  apply H; reflexivity.
Defined.

Lemma log_failure_outcomes_witness :
  test_stack id script_stack = false /\
  log_failure id id script_stack (VStr "m") st0 =
    (st0, Exn (IndexError "list index out of range")).
Proof.
  split; [reflexivity|].
  destruct (log_failure_outcomes id id script_stack (VStr "m") st0) as (_ & H).
  destruct (H eq_refl) as (e & He & _). rewrite He.
  vm_compute in He. injection He as <-. reflexivity.
Defined.

Lemma soft_failure_outside_test_witness :
  exists e', equal id id script_stack (2, 3, "x") st0 = (st0, Exn e') /\ is_assertion e' = false.
Proof.
  destruct (soft_failure_outside_test id id script_stack equal_body (2, 3, "x") (ret tt)
              st0 st0 (AssertionError "x") eq_refl eq_refl eq_refl) as (H & _).
  apply H. reflexivity.
Defined.

Lemma assert_predicate_contract_witness :
  greater id id demo_stack (1%Z, 2%Z, "too small") st0 =
    (set_failures ["FAILURE: too small" ++ nl ++ pseudo_trace_of id id demo_stack] st0, Ret false).
Proof.
  exact (assert_predicate_contract id id (fun '(a, b, _) => Z.gtb a b) (fun '(_, _, m) => m)
           demo_stack (1%Z, 2%Z, "too small") st0 eq_refl).
Defined.



Lemma soft_checks_accumulate_witness :
  snd (run_all (map (assert_call id id)
         [(demo_stack, false, "a"); (demo_stack, true, "b"); (demo_stack, false, "c")]) st0)
    = Ret [false; true; false] /\
  failures (fst (run_all (map (assert_call id id)
         [(demo_stack, false, "a"); (demo_stack, true, "b"); (demo_stack, false, "c")]) st0))
    = [failure_entry id id demo_stack (VExc (AssertionError "a"));
       failure_entry id id demo_stack (VExc (AssertionError "c"))].
Proof.
  rewrite (soft_checks_accumulate id id
             [(demo_stack, false, "a"); (demo_stack, true, "b"); (demo_stack, false, "c")] st0
             eq_refl).
  - split; reflexivity.
  - constructor; [reflexivity|constructor; [reflexivity|constructor; [reflexivity|constructor]]].
Defined.

Lemma strict_checks_stop_at_first_witness :
  run_all (map (assert_call id id)
    [(demo_stack, true, "a"); (demo_stack, false, "b"); (demo_stack, false, "c")])
    (mk_st true [] VNone) = (mk_st true [] VNone, Exn (AssertionError "b")).
Proof.
  exact (strict_checks_stop_at_first id id
           [(demo_stack, true, "a"); (demo_stack, false, "b"); (demo_stack, false, "c")]
           (mk_st true [] VNone) eq_refl).
Defined.

Lemma raises_matching_suppressed_witness :
  with_raises id id demo_stack (raises ["TypeError"; "ValueError"] (VStr "m"))
    (@raise unit unicode_decode_error) st0 =
    (st0, Ret (mk_raises ["TypeError"; "ValueError"] VNone)).
Proof.
  exact (raises_matching_suppressed id id demo_stack (raises ["TypeError"; "ValueError"] (VStr "m"))
           (@raise unit unicode_decode_error) st0 st0 unicode_decode_error eq_refl eq_refl).
Defined.
